(** * HTTP OTA firmware update of the LoRa trap monitor

    Shallow embedding of [src/lora_trap_monitor/src/httpota.cpp]: the
    handlers [HttpOta::checkAuth], [HttpOta::handleUpdatePage],
    [HttpOta::handleUpdateUpload] and [HttpOta::handleUpdateDone], run
    against the platform's global [Update] object.

    Observable behaviour (serial output, HTTP responses, calls on [Update],
    [delay], [ESP.restart]) is recorded as a list of [effect]s, in the order
    the C++ code performs it. The handlers are state transformers on the
    static counter [written] and the state of [Update]. *)

From Stdlib Require Import List String Arith NArith ZArith Lia.
From Stdlib Require Import Strings.Byte.
Import ListNotations.
Local Open Scope bool_scope.


(** ** Data of the web server *)

(** [HTTPUploadStatus] of the ESP32 [WebServer]. *)
Inductive HTTPUploadStatus :=
| UPLOAD_FILE_START
| UPLOAD_FILE_WRITE
| UPLOAD_FILE_END
| UPLOAD_FILE_ABORTED.

(** The fields of [HTTPUpload] the handler reads. *)
Record HTTPUpload := mkUpload {
  status : HTTPUploadStatus;
  filename : string;
  totalSize : N;
  currentSize : N;
  buf : list byte
}.

(** Credentials carried by the request (HTTP Basic), if any. *)
Definition Credentials := option (string * string).

(** Observable actions of the handlers. Format arguments of
    [Serial.printf] are dropped: only the format string is kept. *)
Inductive effect :=
| Log (fmt : string)                 (* Serial.println / Serial.printf *)
| PrintError                         (* Update.printError(Serial) *)
| Send (code : nat) (ctype body : string)  (* server.send *)
| RequestAuth                        (* server.requestAuthentication() *)
| Delay (ms : nat)                   (* delay(ms) *)
| Restart                            (* ESP.restart() *)
| Yield                              (* yield() *)
| CallBegin (ok : bool)              (* Update.begin() and its result *)
| CallWrite (len w : N)            (* Update.write(buf, len) returning w *)
| CallEnd (evenIfRemaining ok : bool). (* Update.end(b) and its result *)

(** ** The [Update] object

    The operations of the platform's [UpdateClass] that the handlers use,
    over an abstract state [S]. [up_remaining] is [Update.remaining()], the
    room left in the reserved region (a [size_t]). *)
Record UpdateClass (S : Type) := {
  up_begin : S -> bool * S;                  (* Update.begin() *)
  up_write : list byte -> N -> S -> N * S;   (* Update.write(data, len) *)
  up_end : bool -> S -> bool * S;            (* Update.end(evenIfRemaining) *)
  up_hasError : S -> bool;                   (* Update.hasError() *)
  up_remaining : S -> N                      (* Update.remaining() *)
}.
Arguments up_begin {S} _ _.
Arguments up_write {S} _ _ _ _.
Arguments up_end {S} _ _ _.
Arguments up_hasError {S} _ _.
Arguments up_remaining {S} _ _.

(** [size_t] on the ESP32-S3 is 32 bits wide. *)
Definition SIZE_T_MOD : N := 2 ^ 32.

(** ** The handlers *)

Section HttpOta.
Context {S : Type} (Update : UpdateClass S).
Variables UPDATE_USER UPDATE_PASS : string.

(** Program state: the function-local [static size_t written] of
    [handleUpdateUpload] and the state of the global [Update]. *)
Record Ota := mkOta {
  written : N;
  update : S
}.

(** [server.authenticate(UPDATE_USER, UPDATE_PASS)]. *)
Definition authenticate (cred : Credentials) : bool :=
  match cred with
  | Some (u, p) => String.eqb u UPDATE_USER && String.eqb p UPDATE_PASS
  | None => false
  end.

(** [HttpOta::checkAuth]. *)
Definition checkAuth (cred : Credentials) : bool * list effect :=
  if negb (authenticate cred) then (false, [RequestAuth])
  else (true, []).

Definition update_form : string :=
  "<!doctype html><html><head><meta name='viewport' content='width=device-width,initial-scale=1'><title>Upload firmware</title></head><body><h2>Upload new firmware (.bin)</h2><form method='POST' action='/update' enctype='multipart/form-data'><input type='file' name='firmware' accept='.bin'><input type='submit' value='Update'></form></body></html>".

(** [HttpOta::handleUpdatePage]. *)
Definition handleUpdatePage (cred : Credentials) : list effect :=
  let (ok, e) := checkAuth cred in
  if negb ok then e
  else e ++ [Send 200 "text/html" update_form].

(** [HttpOta::handleUpdateUpload], for one chunk-status event. *)
Definition handleUpdateUpload (cred : Credentials) (upload : HTTPUpload)
    (st : Ota) : Ota * list effect :=
  let (ok, e0) := checkAuth cred in
  if negb ok then (st, e0) else
  let pre := e0 ++ [Log "[OTA] Uploading firmware...";
                    Log "[OTA] Upload: %s, size=%u\n"] in
  let '(st', body) :=
    match status upload with
    | UPLOAD_FILE_START =>
        let (b, s1) := up_begin Update (update st) in
        (mkOta 0%N s1,
         [CallBegin b] ++ (if negb b then [PrintError] else [])
           ++ [Log "[OTA] Start: %s, size=%u\n"])
    | UPLOAD_FILE_WRITE =>
        let (w, s1) := up_write Update (buf upload) (currentSize upload) (update st) in
        (mkOta ((written st + w) mod SIZE_T_MOD)%N s1,
         [CallWrite (currentSize upload) w]
           ++ (if negb (N.eqb w (currentSize upload))
               then [Log "[OTA] Write mismatch"] else []))
    | UPLOAD_FILE_END =>
        let (b, s1) := up_end Update true (update st) in
        (mkOta (written st) s1,
         [CallEnd true b]
           ++ (if b then [Log "[OTA] Success: %u bytes written, rebooting...\n"]
               else [PrintError]))
    | UPLOAD_FILE_ABORTED =>
        let (b, s1) := up_end Update false (update st) in
        (mkOta (written st) s1, [CallEnd false b; Log "[OTA] Aborted"])
    end in
  (st', pre ++ body ++ [Yield]).

(** [HttpOta::handleUpdateDone]. *)
Definition handleUpdateDone (cred : Credentials) (st : Ota) : Ota * list effect :=
  let (ok, e0) := checkAuth cred in
  if negb ok then (st, e0) else
  if up_hasError Update (update st)
  then (st, e0 ++ [Send 200 "text/plain" "Update FAILED"])
  else (st, e0 ++ [Send 200 "text/plain" "Update OK. Rebooting..."; Delay 500; Restart]).

(** The web server calls the upload handler once per chunk-status event,
    in arrival order. *)
Fixpoint run_upload (cred : Credentials) (us : list HTTPUpload) (st : Ota)
    : Ota * list effect :=
  match us with
  | [] => (st, [])
  | u :: us' =>
      let (st1, e1) := handleUpdateUpload cred u st in
      let (st2, e2) := run_upload cred us' st1 in
      (st2, e1 ++ e2)
  end.

(** A [POST /update] request whose body was received completely: the
    upload events of its file field, then the completion handler. *)
Definition handlePostUpdate (cred : Credentials) (us : list HTTPUpload) (st : Ota)
    : Ota * list effect :=
  let (st1, e1) := run_upload cred us st in
  let (st2, e2) := handleUpdateDone cred st1 in
  (st2, e1 ++ e2).

(** Whether an upload event sequence contains [UPLOAD_FILE_ABORTED]. *)
Definition aborted_upload (us : list HTTPUpload) : bool :=
  existsb (fun u => match status u with UPLOAD_FILE_ABORTED => true | _ => false end) us.

(** The events the server delivers: when the connection is lost it hands
    [UPLOAD_FILE_ABORTED] to the upload handler and parses nothing more. *)
Fixpoint upto_abort (us : list HTTPUpload) : list HTTPUpload :=
  match us with
  | [] => []
  | u :: us' =>
      match status u with
      | UPLOAD_FILE_ABORTED => [u]
      | _ => u :: upto_abort us'
      end
  end.

(** A [POST /update] request as the server handles it: an aborted request
    runs the upload handler up to the abort event and is then dropped
    without calling the completion handler (no response is sent); a
    complete one is [handlePostUpdate]. *)
Definition handlePostRequest (cred : Credentials) (us : list HTTPUpload) (st : Ota)
    : Ota * list effect :=
  if aborted_upload us then run_upload cred (upto_abort us) st
  else handlePostUpdate cred us st.

End HttpOta.

Arguments Ota : clear implicits.
Arguments mkOta {S} _ _.
Arguments written {S} _.
Arguments update {S} _.

(** ** The platform's [Update] object

    Model of the arduino-esp32 [UpdateClass] (Updater.cpp) as the handlers
    use it: [begin()] with the default size [UPDATE_SIZE_UNKNOWN] (the whole
    OTA partition) and command [U_FLASH], [write], [end(evenIfRemaining)],
    [hasError()], [remaining()]. The sector buffer of the library is not
    modelled: [u_progress] counts the bytes [write] accepted. The image check
    done when the boot partition is switched ([esp_ota_set_boot_partition],
    which verifies the image) is the parameter [image_ok]; [partition] is
    the size of the next OTA partition, [None] when there is none. *)

Definition UPDATE_ERROR_OK := 0.
Definition UPDATE_ERROR_READ := 3.
Definition UPDATE_ERROR_SPACE := 4.
Definition UPDATE_ERROR_MAGIC_BYTE := 8.
Definition UPDATE_ERROR_ACTIVATE := 9.
Definition UPDATE_ERROR_NO_PARTITION := 10.
Definition UPDATE_ERROR_ABORT := 12.

(** [ESP_IMAGE_HEADER_MAGIC]. *)
Definition ESP_IMAGE_HEADER_MAGIC : byte := xe9.

Record Updater := mkUpdater {
  u_size : N;                     (* _size; 0 when no update is running *)
  u_progress : N;                 (* _progress *)
  u_error : nat;                  (* _error *)
  u_image : list byte;            (* bytes staged in the OTA partition *)
  u_boot : option (list byte)     (* image selected for the next boot *)
}.

(** The state at power-on: nothing running, no error, boot unchanged. *)
Definition updater_init : Updater := mkUpdater 0%N 0%N UPDATE_ERROR_OK [] None.

Section Esp32Updater.
Variable partition : option N.
Variable image_ok : list byte -> bool.

Definition upd_hasError (s : Updater) : bool := negb (Nat.eqb (u_error s) UPDATE_ERROR_OK).
Definition upd_isRunning (s : Updater) : bool := (0 <? u_size s)%N.
Definition upd_isFinished (s : Updater) : bool := N.eqb (u_progress s) (u_size s).
Definition upd_remaining (s : Updater) : N := (u_size s - u_progress s)%N.

(** [_reset()]. *)
Definition upd_reset (s : Updater) : Updater :=
  mkUpdater 0%N 0%N (u_error s) (u_image s) (u_boot s).

(** [_abort(err)]: [_reset()] then record the error. *)
Definition upd_abort (err : nat) (s : Updater) : Updater :=
  mkUpdater 0%N 0%N err (u_image s) (u_boot s).

(** [begin(UPDATE_SIZE_UNKNOWN)]. *)
Definition upd_begin (s : Updater) : bool * Updater :=
  if upd_isRunning s then (false, s)          (* "already running" *)
  else
    match partition with
    | None => (false, mkUpdater 0%N 0%N UPDATE_ERROR_NO_PARTITION (u_image s) (u_boot s))
    | Some p => (true, mkUpdater p 0%N UPDATE_ERROR_OK [] (u_boot s))
    end.

(** [write(data, len)]. The library buffers bytes up to a flash sector and
    checks the image magic when it flushes the first sector; this model
    checks the magic on the first write. The two differ only in the count a
    write returns before the error is recorded, not in the staged image. *)
Definition upd_write (data : list byte) (len : N) (s : Updater) : N * Updater :=
  if upd_hasError s || negb (upd_isRunning s) then (0%N, s)
  else if (upd_remaining s <? len)%N then (0%N, upd_abort UPDATE_ERROR_SPACE s)
  else
    let d := firstn (N.to_nat len) data in
    if N.eqb (u_progress s) 0 && (0 <? len)%N
       && negb (Byte.eqb (hd x00 d) ESP_IMAGE_HEADER_MAGIC)
    then (0%N, upd_abort UPDATE_ERROR_MAGIC_BYTE s)
    else (len, mkUpdater (u_size s) (u_progress s + len)%N (u_error s)
                         (u_image s ++ d) (u_boot s)).

(** [_verifyEnd()] for [U_FLASH]: enable the partition and switch boot to it. *)
Definition upd_verifyEnd (s : Updater) : bool * Updater :=
  match u_image s with
  | [] => (false, upd_abort UPDATE_ERROR_READ s)
  | _ =>
      if image_ok (u_image s)
      then (true, mkUpdater 0%N 0%N (u_error s) (u_image s) (Some (u_image s)))
      else (false, upd_abort UPDATE_ERROR_ACTIVATE s)
  end.

(** [end(evenIfRemaining)]. *)
Definition upd_end (evenIfRemaining : bool) (s : Updater) : bool * Updater :=
  if upd_hasError s || N.eqb (u_size s) 0 then (false, s)
  else if negb (upd_isFinished s) && negb evenIfRemaining
  then (false, upd_abort UPDATE_ERROR_ABORT s)
  else
    let s1 := if evenIfRemaining
              then mkUpdater (u_progress s) (u_progress s) (u_error s) (u_image s) (u_boot s)
              else s in
    upd_verifyEnd s1.

Definition Update_esp32 : UpdateClass Updater := {|
  up_begin := upd_begin;
  up_write := upd_write;
  up_end := upd_end;
  up_hasError := upd_hasError;
  up_remaining := upd_remaining
|}.

End Esp32Updater.

(** ** In-memory sinks *)

(** A sink with a region of [r] bytes that accepts as much of each chunk as
    fits and seals without error. *)
Definition room_max (r : N) : N := N.min r (SIZE_T_MOD - 1).

Definition mem_sink : UpdateClass N := {|
  up_begin := fun r => (true, r);
  up_write := fun _ len r => let w := N.min len (room_max r) in (w, room_max r - w)%N;
  up_end := fun _ r => (true, r);
  up_hasError := fun _ => false;
  up_remaining := room_max
|}.

(** A sink whose [k]-th write accepts at most the [k]-th entry of its script
    (all of the chunk once the script is exhausted). *)
Definition scripted_sink : UpdateClass (list N) := {|
  up_begin := fun s => (true, s);
  up_write := fun _ len s =>
    match s with [] => (len, []) | c :: s' => (N.min len c, s') end;
  up_end := fun _ s => (true, s);
  up_hasError := fun _ => false;
  up_remaining := fun _ => 0%N
|}.

(** A sink that accepts every write in full and always seals. *)
Definition full_sink : UpdateClass unit := {|
  up_begin := fun u => (true, u);
  up_write := fun _ len u => (len, u);
  up_end := fun _ u => (true, u);
  up_hasError := fun _ => false;
  up_remaining := fun _ => 0%N
|}.

(** Example requests. *)
Definition USER : string := "admin".
Definition PASS : string := "changeme".
Definition good_cred : Credentials := Some (USER, PASS).
Definition bad_cred : Credentials := Some (USER, "guess"%string).

Definition ev_start (name : string) (size : N) : HTTPUpload :=
  mkUpload UPLOAD_FILE_START name size 0%N [].
Definition ev_data (name : string) (d : list byte) : HTTPUpload :=
  mkUpload UPLOAD_FILE_WRITE name 0%N (N.of_nat (List.length d)) d.
Definition ev_end (name : string) (size : N) : HTTPUpload :=
  mkUpload UPLOAD_FILE_END name size 0%N [].

(** A chunk of [n] bytes, starting with the image magic. *)
Definition chunk (n : nat) : list byte :=
  match n with 0 => [] | S k => ESP_IMAGE_HEADER_MAGIC :: repeat x00 k end.

(** ** Observations on traces *)

(** A data chunk with its buffer and [currentSize]. *)
Definition ev_write (name : string) (c : list byte * N) : HTTPUpload :=
  mkUpload UPLOAD_FILE_WRITE name 0%N (snd c) (fst c).

(** The events of one upload session: start, data chunks, end. *)
Definition session (name : string) (tot : N) (chunks : list (list byte * N))
    : list HTTPUpload :=
  ev_start name tot :: map (ev_write name) chunks ++ [ev_end name tot].

(** Sum of the counts returned by the [Update.write] calls of a trace. *)
Fixpoint sum_written (es : list effect) : N :=
  match es with
  | [] => 0%N
  | CallWrite _ w :: es' => (w + sum_written es')%N
  | _ :: es' => sum_written es'
  end.

(** Sum of the bytes offered by data chunks. *)
Fixpoint sum_offered (chunks : list (list byte * N)) : N :=
  match chunks with
  | [] => 0%N
  | c :: cs => (snd c + sum_offered cs)%N
  end.

(** Effects that reach the client or the device: a response, a delay or a
    restart. *)
Definition is_reply (e : effect) : bool :=
  match e with
  | Send _ _ _ | Delay _ | Restart => true
  | _ => false
  end.

(** Whether a trace calls [Update.end]. *)
Definition calls_end (es : list effect) : bool :=
  existsb (fun e => match e with CallEnd _ _ => true | _ => false end) es.

(** Number of [Update.write] calls of a trace. *)
Definition count_writes (es : list effect) : nat :=
  List.length (filter (fun e => match e with CallWrite _ _ => true | _ => false end) es).

Fixpoint nondecreasing (l : list N) : bool :=
  match l with
  | x :: (y :: _) as l' => (x <=? y)%N && nondecreasing l'
  | _ => true
  end.

(** The value of [written] after each event of a sequence. *)
Fixpoint written_trace {Sk : Type} (Update : UpdateClass Sk) (user pass : string)
    (cred : Credentials) (us : list HTTPUpload) (st : Ota Sk) : list N :=
  match us with
  | [] => []
  | u :: us' =>
      let st1 := fst (handleUpdateUpload Update user pass cred u st) in
      written st1 :: written_trace Update user pass cred us' st1
  end.

(** ** Routing: [HttpOta::begin], [HttpOta::handleRoot], [HttpOta::handleClient] *)

(** The request methods of the ESP32 [WebServer]. *)
Inductive HTTPMethod :=
| HTTP_GET | HTTP_POST | HTTP_PUT | HTTP_PATCH | HTTP_DELETE | HTTP_OPTIONS | HTTP_HEAD.

(** One request as the server parses it: method, path, Basic credentials,
    and the chunk-status events of a multipart file field, if any. *)
Record Request := mkRequest {
  req_method : HTTPMethod;
  req_uri : string;
  req_cred : Credentials;
  req_uploads : list HTTPUpload
}.

(** The page of [HttpOta::handleRoot]; [ip] is [WiFi.localIP().toString()]. *)
Definition root_html (ip : string) : string :=
  "<!doctype html><html><head><meta name='viewport' content='width=device-width,initial-scale=1'><title>ESP32 Web Updater</title></head><body><h1>ESP32-S3 Web Updater</h1><p>IP: "
  ++ ip ++ "</p><p><a href='/update'>Go to /update</a></p></body></html>".

(** [HttpOta::handleRoot]. *)
Definition handleRoot (ip : string) : list effect :=
  [Send 200 "text/html" (root_html ip)].

(** The [onNotFound] handler of [HttpOta::begin]. *)
Definition notFound : list effect := [Send 404 "text/plain" "Not Found"].

(** One request served by [server.handleClient()] with the routes that
    [HttpOta::begin] registers: [GET /], [GET /update], [POST /update]
    (upload handler for each chunk-status event, then the completion
    handler unless the upload was aborted), anything else to the
    not-found handler. A route registered
    for one method does not match another method. *)
Definition serveRequest {Sk : Type} (Update : UpdateClass Sk) (user pass ip : string)
    (req : Request) (st : Ota Sk) : Ota Sk * list effect :=
  if String.eqb (req_uri req) "/" then
    match req_method req with
    | HTTP_GET => (st, handleRoot ip)
    | _ => (st, notFound)
    end
  else if String.eqb (req_uri req) "/update" then
    match req_method req with
    | HTTP_GET => (st, handleUpdatePage user pass (req_cred req))
    | HTTP_POST => handlePostRequest Update user pass (req_cred req) (req_uploads req) st
    | _ => (st, notFound)
    end
  else (st, notFound).

(** ** [heartbeat()] of main.cpp *)

(** Its two function-local [static int]s. *)
Record Heartbeat := mkHeartbeat {
  hb_count : Z;
  hb_nextChange : Z
}.

(** [static int count = 0; static int nextChange = 200;] *)
Definition heartbeat_init : Heartbeat := mkHeartbeat 0 200.

(** [heartbeat()]: C's [%] on [int] is [Z.rem]. *)
Definition heartbeat (h : Heartbeat) : Heartbeat * list effect :=
  let count := (hb_count h + 1)%Z in
  if Z.eqb (Z.rem count (hb_nextChange h)) 0 then
    (mkHeartbeat 0 (if Z.eqb (hb_nextChange h) 500 then 20 else 200), [Log ". "])
  else (mkHeartbeat count (hb_nextChange h), []).

(** [n] successive calls. *)
Fixpoint heartbeats (n : nat) (h : Heartbeat) : Heartbeat * list effect :=
  match n with
  | O => (h, [])
  | S k =>
      let (h1, e1) := heartbeat h in
      let (h2, e2) := heartbeats k h1 in
      (h2, e1 ++ e2)
  end.

(** ** Whole upload sessions on the ESP32 model *)



(** Effects that act on the [Update] object or reboot the device. *)
Definition touches_device (e : effect) : bool :=
  match e with
  | CallBegin _ | CallWrite _ _ | CallEnd _ _ | Restart => true
  | _ => false
  end.

(** * Proofs *)

(** ** Unfolding the handlers *)

Section Steps.
Context {Sk : Type} (Update : UpdateClass Sk).
Variables user pass : string.

Lemma checkAuth_ok cred :
  authenticate user pass cred = true -> checkAuth user pass cred = (true, []).
Proof. unfold checkAuth; intros ->; reflexivity. Qed.

Lemma checkAuth_fail cred :
  authenticate user pass cred = false -> checkAuth user pass cred = (false, [RequestAuth]).
Proof. unfold checkAuth; intros ->; reflexivity. Qed.

Lemma upload_unauth cred u st :
  authenticate user pass cred = false ->
  handleUpdateUpload Update user pass cred u st = (st, [RequestAuth]).
Proof. intros H; unfold handleUpdateUpload; rewrite (checkAuth_fail _ H); reflexivity. Qed.

Lemma done_unauth cred st :
  authenticate user pass cred = false ->
  handleUpdateDone Update user pass cred st = (st, [RequestAuth]).
Proof. intros H; unfold handleUpdateDone; rewrite (checkAuth_fail _ H); reflexivity. Qed.

Lemma upload_no_reply cred u st :
  forallb (fun e => negb (is_reply e)) (snd (handleUpdateUpload Update user pass cred u st)) = true.
Proof.
  unfold handleUpdateUpload, checkAuth.
  destruct (authenticate user pass cred); simpl; [|reflexivity].
  destruct (status u).
  - destruct (up_begin Update (update st)) as [[|] s1]; reflexivity.
  - destruct (up_write Update _ _ _) as [w s1]; destruct (N.eqb w _); reflexivity.
  - destruct (up_end Update true _) as [[|] s1]; reflexivity.
  - destruct (up_end Update false _) as [b s1]; reflexivity.
Qed.

Lemma run_upload_no_reply cred us st :
  forallb (fun e => negb (is_reply e)) (snd (run_upload Update user pass cred us st)) = true.
Proof.
  revert st; induction us as [|u us IH]; intros st; [reflexivity|].
  simpl. pose proof (upload_no_reply cred u st) as Hu.
  destruct (handleUpdateUpload Update user pass cred u st) as [st1 e1].
  specialize (IH st1).
  destruct (run_upload Update user pass cred us st1) as [st2 e2].
  simpl in *. rewrite forallb_app, Hu, IH; reflexivity.
Qed.

Lemma run_upload_unauth cred us st :
  authenticate user pass cred = false ->
  run_upload Update user pass cred us st = (st, repeat RequestAuth (List.length us)).
Proof.
  intros H; revert st; induction us as [|u us IH]; intros st; [reflexivity|].
  simpl. rewrite (upload_unauth _ _ _ H), IH. reflexivity.
Qed.

Lemma run_upload_app cred us1 us2 st :
  run_upload Update user pass cred (us1 ++ us2) st =
  (fst (run_upload Update user pass cred us2 (fst (run_upload Update user pass cred us1 st))),
   snd (run_upload Update user pass cred us1 st)
     ++ snd (run_upload Update user pass cred us2 (fst (run_upload Update user pass cred us1 st)))).
Proof.
  revert st; induction us1 as [|u us1 IH]; intros st.
  - simpl. destruct (run_upload Update user pass cred us2 st); reflexivity.
  - simpl. destruct (handleUpdateUpload Update user pass cred u st) as [st1 e1].
    rewrite IH.
    destruct (run_upload Update user pass cred us1 st1) as [st2 e2]; simpl.
    destruct (run_upload Update user pass cred us2 st2) as [st3 e3]; simpl.
    rewrite app_assoc; reflexivity.
Qed.

End Steps.

(** ** The completion handler and authentication *)

Lemma serve_post_update {Sk : Type} (Update : UpdateClass Sk) user pass ip req st :
  req_method req = HTTP_POST -> req_uri req = "/update"%string ->
  serveRequest Update user pass ip req st =
  handlePostRequest Update user pass (req_cred req) (req_uploads req) st.
Proof. intros Hm Hu. unfold serveRequest. rewrite Hm, Hu. reflexivity. Qed.

(** C1: for an authenticated [POST /update] request, the upload events
    never send a response or restart. If the upload was aborted the request
    gets no response at all and the device does not restart. Otherwise,
    if [Update] records no error after the upload events, the device
    answers "Update OK. Rebooting...", waits 500 ms and restarts, in that
    order; if an error is recorded it answers "Update FAILED" and does not
    restart. *)
Theorem post_update_reply_before_restart :
  forall (Sk : Type) (Update : UpdateClass Sk) (user pass ip : string)
         (req : Request) (st : Ota Sk),
  req_method req = HTTP_POST -> req_uri req = "/update"%string ->
  authenticate user pass (req_cred req) = true ->
  let r := serveRequest Update user pass ip req st in
  let st1 := fst (run_upload Update user pass (req_cred req) (req_uploads req) st) in
  let e_up := snd (run_upload Update user pass (req_cred req) (req_uploads req) st) in
  (aborted_upload (req_uploads req) = true ->
     forallb (fun e => negb (is_reply e)) (snd r) = true) /\
  (aborted_upload (req_uploads req) = false ->
     forallb (fun e => negb (is_reply e)) e_up = true /\
     (up_hasError Update (update st1) = false ->
        snd r = e_up ++ [Send 200 "text/plain" "Update OK. Rebooting..."; Delay 500; Restart]) /\
     (up_hasError Update (update st1) = true ->
        snd r = e_up ++ [Send 200 "text/plain" "Update FAILED"])).
Proof.
  intros Sk Update user pass ip req st Hm Hu Hauth r st1 e_up.
  unfold r, st1, e_up. rewrite (serve_post_update Update user pass ip req st Hm Hu).
  unfold handlePostRequest.
  split; intros Ha; rewrite Ha; [apply run_upload_no_reply|].
  split; [apply run_upload_no_reply|].
  unfold handlePostUpdate.
  destruct (run_upload Update user pass (req_cred req) (req_uploads req) st) as [s1 e1]; simpl.
  unfold handleUpdateDone. rewrite (checkAuth_ok _ _ _ Hauth). simpl.
  split; intros ->; reflexivity.
Qed.

Lemma post_update_reply_before_restart_witness :
  let req := mkRequest HTTP_POST "/update" good_cred (session "fw.bin" 4 [(chunk 4, 4%N)]) in
  let r := serveRequest mem_sink USER PASS "192.168.1.20" req (mkOta 0%N 16%N) in
  let st1 := fst (run_upload mem_sink USER PASS (req_cred req) (req_uploads req) (mkOta 0%N 16%N)) in
  let e_up := snd (run_upload mem_sink USER PASS (req_cred req) (req_uploads req) (mkOta 0%N 16%N)) in
  (aborted_upload (req_uploads req) = true ->
     forallb (fun e => negb (is_reply e)) (snd r) = true) /\
  (aborted_upload (req_uploads req) = false ->
     forallb (fun e => negb (is_reply e)) e_up = true /\
     (up_hasError mem_sink (update st1) = false ->
        snd r = e_up ++ [Send 200 "text/plain" "Update OK. Rebooting..."; Delay 500; Restart]) /\
     (up_hasError mem_sink (update st1) = true ->
        snd r = e_up ++ [Send 200 "text/plain" "Update FAILED"])).
Proof.
  exact (post_update_reply_before_restart N mem_sink USER PASS "192.168.1.20"
           (mkRequest HTTP_POST "/update" good_cred (session "fw.bin" 4 [(chunk 4, 4%N)]))
           (mkOta 0%N 16%N) eq_refl eq_refl eq_refl).
Defined.

(** C6: without valid credentials, [GET /update] and both handlers of
    [POST /update] only send the authentication challenge: [written] and the
    state of [Update] are untouched and no [Update] call is made. *)
Theorem unauthenticated_update_untouched :
  forall (Sk : Type) (Update : UpdateClass Sk) (user pass : string)
         (cred : Credentials) (u : HTTPUpload) (us : list HTTPUpload) (st : Ota Sk),
  authenticate user pass cred = false ->
  handleUpdatePage user pass cred = [RequestAuth] /\
  handleUpdateUpload Update user pass cred u st = (st, [RequestAuth]) /\
  handleUpdateDone Update user pass cred st = (st, [RequestAuth]) /\
  handlePostUpdate Update user pass cred us st =
    (st, repeat RequestAuth (List.length us + 1)).
Proof.
  intros Sk Update user pass cred u us st H.
  split; [unfold handleUpdatePage; rewrite (checkAuth_fail _ _ _ H); reflexivity|].
  split; [apply upload_unauth; exact H|].
  split; [apply done_unauth; exact H|].
  unfold handlePostUpdate. rewrite (run_upload_unauth _ _ _ _ _ _ H).
  rewrite (done_unauth _ _ _ _ _ H). rewrite repeat_app. reflexivity.
Qed.

Lemma unauthenticated_update_untouched_witness :
  authenticate USER PASS bad_cred = false /\
  handleUpdatePage USER PASS bad_cred = [RequestAuth] /\
  handleUpdateUpload mem_sink USER PASS bad_cred (ev_start "fw.bin" 4) (mkOta 7%N 16%N)
    = (mkOta 7%N 16%N, [RequestAuth]) /\
  handleUpdateDone mem_sink USER PASS bad_cred (mkOta 7%N 16%N) = (mkOta 7%N 16%N, [RequestAuth]) /\
  handlePostUpdate mem_sink USER PASS bad_cred (session "fw.bin" 4 [(chunk 4, 4%N)]) (mkOta 7%N 16%N)
    = (mkOta 7%N 16%N, repeat RequestAuth (List.length (session "fw.bin" 4 [(chunk 4, 4%N)]) + 1)).
Proof.
  split; [reflexivity|].
  exact (unauthenticated_update_untouched N mem_sink USER PASS bad_cred (ev_start "fw.bin" 4)
           (session "fw.bin" 4 [(chunk 4, 4%N)]) (mkOta 7%N 16%N) eq_refl).
Defined.

(** C10: the completion handler looks only at the credentials and at
    [Update.hasError()]; on a fresh device, an authenticated [POST /update]
    whose body delivered no file chunk (no session started, nothing sealed,
    no error recorded) is answered "Update OK. Rebooting..." and restarts. *)
Theorem done_ignores_session_outcome :
  (forall (Sk : Type) (Update : UpdateClass Sk) (user pass : string)
          (cred : Credentials) (st : Ota Sk),
     handleUpdateDone Update user pass cred st =
       (st, if authenticate user pass cred
            then if up_hasError Update (update st)
                 then [Send 200 "text/plain" "Update FAILED"]
                 else [Send 200 "text/plain" "Update OK. Rebooting..."; Delay 500; Restart]
            else [RequestAuth])) /\
  (forall (partition : option N) (image_ok : list byte -> bool),
     handlePostUpdate (Update_esp32 partition image_ok) USER PASS good_cred []
       (mkOta 0%N updater_init) =
     (mkOta 0%N updater_init,
      [Send 200 "text/plain" "Update OK. Rebooting..."; Delay 500; Restart]) /\
     u_boot updater_init = None).
Proof.
  split.
  - intros Sk Update user pass cred st. unfold handleUpdateDone, checkAuth.
    destruct (authenticate user pass cred); simpl; [|reflexivity].
    destruct (up_hasError Update (update st)); reflexivity.
  - intros partition image_ok. split; reflexivity.
Qed.

(** ** The [written] counter *)

Section Counter.
Context {Sk : Type} (Update : UpdateClass Sk).
Variables user pass : string.
Variable cred : Credentials.
Hypothesis Hauth : authenticate user pass cred = true.

Lemma upload_write_step u st :
  status u = UPLOAD_FILE_WRITE ->
  handleUpdateUpload Update user pass cred u st =
    (mkOta ((written st + fst (up_write Update (buf u) (currentSize u) (update st)))
              mod SIZE_T_MOD)%N
           (snd (up_write Update (buf u) (currentSize u) (update st))),
     [Log "[OTA] Uploading firmware..."; Log "[OTA] Upload: %s, size=%u\n";
      CallWrite (currentSize u) (fst (up_write Update (buf u) (currentSize u) (update st)))]
     ++ (if negb (N.eqb (fst (up_write Update (buf u) (currentSize u) (update st)))
                        (currentSize u))
         then [Log "[OTA] Write mismatch"] else [])
     ++ [Yield]).
Proof.
  intros Hs. unfold handleUpdateUpload. rewrite (checkAuth_ok _ _ _ Hauth), Hs. simpl.
  destruct (up_write Update (buf u) (currentSize u) (update st)) as [w s1]; reflexivity.
Qed.

Lemma upload_start_written u st :
  status u = UPLOAD_FILE_START ->
  written (fst (handleUpdateUpload Update user pass cred u st)) = 0%N.
Proof.
  intros Hs. unfold handleUpdateUpload. rewrite (checkAuth_ok _ _ _ Hauth), Hs. simpl.
  destruct (up_begin Update (update st)) as [b s1]; reflexivity.
Qed.

Lemma upload_end_written u st :
  status u = UPLOAD_FILE_END \/ status u = UPLOAD_FILE_ABORTED ->
  written (fst (handleUpdateUpload Update user pass cred u st)) = written st.
Proof.
  intros [Hs|Hs]; unfold handleUpdateUpload; rewrite (checkAuth_ok _ _ _ Hauth), Hs; simpl.
  - destruct (up_end Update true (update st)) as [b s1]; reflexivity.
  - destruct (up_end Update false (update st)) as [b s1]; reflexivity.
Qed.

Lemma upload_end_effects_sum u st :
  status u = UPLOAD_FILE_END ->
  sum_written (snd (handleUpdateUpload Update user pass cred u st)) = 0%N.
Proof.
  intros Hs. unfold handleUpdateUpload. rewrite (checkAuth_ok _ _ _ Hauth), Hs. simpl.
  destruct (up_end Update true (update st)) as [[|] s1]; reflexivity.
Qed.

Lemma upload_start_effects_sum u st :
  status u = UPLOAD_FILE_START ->
  sum_written (snd (handleUpdateUpload Update user pass cred u st)) = 0%N.
Proof.
  intros Hs. unfold handleUpdateUpload. rewrite (checkAuth_ok _ _ _ Hauth), Hs. simpl.
  destruct (up_begin Update (update st)) as [[|] s1]; reflexivity.
Qed.

Lemma sum_written_app es1 es2 :
  sum_written (es1 ++ es2) = (sum_written es1 + sum_written es2)%N.
Proof.
  induction es1 as [|e es1 IH]; [reflexivity|].
  destruct e; simpl; rewrite IH; lia.
Qed.

Lemma run_upload_cons us u st :
  run_upload Update user pass cred (u :: us) st =
  (fst (run_upload Update user pass cred us (fst (handleUpdateUpload Update user pass cred u st))),
   snd (handleUpdateUpload Update user pass cred u st)
     ++ snd (run_upload Update user pass cred us (fst (handleUpdateUpload Update user pass cred u st)))).
Proof.
  simpl. destruct (handleUpdateUpload Update user pass cred u st) as [st1 e1]; simpl.
  destruct (run_upload Update user pass cred us st1); reflexivity.
Qed.

Hypothesis write_le_len : forall d n s, (fst (up_write Update d n s) <= n)%N.
Hypothesis write_in_region : forall d n s,
  (fst (up_write Update d n s) + up_remaining Update (snd (up_write Update d n s))
     <= up_remaining Update s)%N.
Hypothesis remaining_lt : forall s, (up_remaining Update s < SIZE_T_MOD)%N.

(** Inside the region no wrap-around happens: one data chunk. *)
Lemma data_step name c st :
  (written st + up_remaining Update (update st) < SIZE_T_MOD)%N ->
  let r := handleUpdateUpload Update user pass cred (ev_write name c) st in
  written (fst r) = (written st + sum_written (snd r))%N /\
  (sum_written (snd r) <= snd c)%N /\
  (written (fst r) + up_remaining Update (update (fst r)) < SIZE_T_MOD)%N.
Proof.
  intros Hinv r. unfold r. rewrite upload_write_step by reflexivity. simpl.
  pose proof (write_in_region (fst c) (snd c) (update st)) as Hr.
  pose proof (write_le_len (fst c) (snd c) (update st)) as Hl.
  destruct (up_write Update (fst c) (snd c) (update st)) as [w s1]; simpl in *.
  destruct (negb (w =? snd c)%N); simpl;
    rewrite N.mod_small by lia; repeat split; lia.
Qed.

Lemma data_run name chunks st :
  (written st + up_remaining Update (update st) < SIZE_T_MOD)%N ->
  let r := run_upload Update user pass cred (map (ev_write name) chunks) st in
  written (fst r) = (written st + sum_written (snd r))%N /\
  (sum_written (snd r) <= sum_offered chunks)%N /\
  (written (fst r) + up_remaining Update (update (fst r)) < SIZE_T_MOD)%N /\
  nondecreasing (written st :: written_trace Update user pass cred
                                  (map (ev_write name) chunks) st) = true.
Proof.
  revert st; induction chunks as [|c cs IH]; intros st Hinv r; unfold r.
  - simpl. repeat split; [lia|lia|exact Hinv].
  - cbn [map]. rewrite run_upload_cons.
    destruct (data_step name c st Hinv) as [Hw [Hs Hi]].
    set (st1 := fst (handleUpdateUpload Update user pass cred (ev_write name c) st)) in *.
    destruct (IH st1 Hi) as [Hw' [Hs' [Hi' Hn']]].
    simpl fst; simpl snd. rewrite sum_written_app.
    cbn [written_trace]. fold st1.
    change (nondecreasing (written st :: written st1 :: written_trace Update user pass cred
              (map (ev_write name) cs) st1))
      with ((written st <=? written st1)%N && nondecreasing (written st1 ::
              written_trace Update user pass cred (map (ev_write name) cs) st1)).
    rewrite Hn'. simpl sum_offered.
    repeat split; try lia.
    rewrite Bool.andb_true_r. apply N.leb_le. lia.
Qed.

End Counter.

Lemma mem_sink_le_len : forall d n s, (fst (up_write mem_sink d n s) <= n)%N.
Proof. intros d n s; simpl; lia. Qed.

Lemma mem_sink_in_region : forall d n s,
  (fst (up_write mem_sink d n s) + up_remaining mem_sink (snd (up_write mem_sink d n s))
     <= up_remaining mem_sink s)%N.
Proof. intros d n s; simpl; unfold room_max, SIZE_T_MOD; lia. Qed.

Lemma mem_sink_remaining_lt : forall s, (up_remaining mem_sink s < SIZE_T_MOD)%N.
Proof. intros s; simpl; unfold room_max, SIZE_T_MOD; lia. Qed.

(** C3: for an authenticated session start, data chunks, end, against an
    [Update] whose [write] returns at most the offered length and stays
    within [remaining()] (a [size_t]), [written] after the end event is the
    sum of the counts returned by the [write] calls, and that sum never
    exceeds the bytes offered. *)
Theorem session_written_is_sum_of_writes :
  forall (Sk : Type) (Update : UpdateClass Sk) (user pass : string) (cred : Credentials),
  authenticate user pass cred = true ->
  (forall d n s, (fst (up_write Update d n s) <= n)%N) ->
  (forall d n s, (fst (up_write Update d n s)
                  + up_remaining Update (snd (up_write Update d n s))
                  <= up_remaining Update s)%N) ->
  (forall s, (up_remaining Update s < SIZE_T_MOD)%N) ->
  forall (name : string) (tot : N) (chunks : list (list byte * N)) (st : Ota Sk),
  let r := run_upload Update user pass cred (session name tot chunks) st in
  written (fst r) = sum_written (snd r) /\
  (sum_written (snd r) <= sum_offered chunks)%N.
Proof.
  intros Sk Update user pass cred Hauth Hle Hreg Hlt name tot chunks st r. unfold r, session.
  rewrite run_upload_cons by exact Hauth.
  set (st1 := fst (handleUpdateUpload Update user pass cred (ev_start name tot) st)).
  assert (H0 : written st1 = 0%N) by (apply upload_start_written; [exact Hauth|reflexivity]).
  assert (Hinv : (written st1 + up_remaining Update (update st1) < SIZE_T_MOD)%N)
    by (rewrite H0; apply Hlt).
  destruct (data_run Update user pass cred Hauth Hle Hreg name chunks st1 Hinv)
    as [Hw [Hs _]].
  rewrite run_upload_app. simpl fst; simpl snd.
  set (st2 := fst (run_upload Update user pass cred (map (ev_write name) chunks) st1)) in *.
  pose proof (upload_end_written Update user pass cred Hauth (ev_end name tot) st2
                (or_introl eq_refl)) as Hend.
  pose proof (upload_end_effects_sum Update user pass cred Hauth (ev_end name tot) st2
                eq_refl) as Hend_sum.
  destruct (handleUpdateUpload Update user pass cred (ev_end name tot) st2) as [st3 e3].
  simpl fst in *; simpl snd in *.
  rewrite !sum_written_app.
  rewrite (upload_start_effects_sum Update user pass cred Hauth) by reflexivity.
  rewrite Hend_sum, Hend, Hw, H0. simpl sum_written. split; lia.
Qed.

Lemma session_written_is_sum_of_writes_witness :
  authenticate USER PASS good_cred = true /\
  (let r := run_upload mem_sink USER PASS good_cred
              (session "fw.bin" 1024 [(chunk 512, 512%N); (chunk 512, 512%N)]) (mkOta 3%N 700%N) in
   written (fst r) = sum_written (snd r) /\
   (sum_written (snd r) <= sum_offered [(chunk 512, 512%N); (chunk 512, 512%N)])%N).
Proof.
  split; [reflexivity|].
  exact (session_written_is_sum_of_writes N mem_sink USER PASS good_cred eq_refl
           mem_sink_le_len mem_sink_in_region mem_sink_remaining_lt
           "fw.bin" 1024 [(chunk 512, 512%N); (chunk 512, 512%N)] (mkOta 3%N 700%N)).
Defined.

(** C4: every authenticated start event sets [written] to 0, whatever the
    previous state and whether [Update.begin()] succeeds; a data event only
    adds the count returned by [Update.write] ([size_t] addition), end and
    abort events leave it unchanged; and from a start event on, through the
    data chunks of the session, the successive values of [written] start at
    0 and never decrease (against an [Update] whose writes stay within
    [remaining()]). *)
Theorem written_reset_on_start_and_monotone :
  forall (Sk : Type) (Update : UpdateClass Sk) (user pass : string) (cred : Credentials),
  authenticate user pass cred = true ->
  (forall d n s, (fst (up_write Update d n s) <= n)%N) ->
  (forall d n s, (fst (up_write Update d n s)
                  + up_remaining Update (snd (up_write Update d n s))
                  <= up_remaining Update s)%N) ->
  (forall s, (up_remaining Update s < SIZE_T_MOD)%N) ->
  (forall (u : HTTPUpload) (st : Ota Sk), status u = UPLOAD_FILE_START ->
     written (fst (handleUpdateUpload Update user pass cred u st)) = 0%N) /\
  (forall (u : HTTPUpload) (st : Ota Sk), status u = UPLOAD_FILE_WRITE ->
     written (fst (handleUpdateUpload Update user pass cred u st)) =
       ((written st + fst (up_write Update (buf u) (currentSize u) (update st)))
          mod SIZE_T_MOD)%N) /\
  (forall (u : HTTPUpload) (st : Ota Sk),
     status u = UPLOAD_FILE_END \/ status u = UPLOAD_FILE_ABORTED ->
     written (fst (handleUpdateUpload Update user pass cred u st)) = written st) /\
  (forall (name : string) (tot : N) (chunks : list (list byte * N)) (st : Ota Sk),
     let ws := written_trace Update user pass cred
                 (ev_start name tot :: map (ev_write name) chunks) st in
     hd 1%N ws = 0%N /\ nondecreasing ws = true).
Proof.
  intros Sk Update user pass cred Hauth Hle Hreg Hlt.
  split; [intros u st Hs; apply upload_start_written; assumption|].
  split; [intros u st Hs; rewrite upload_write_step by assumption; reflexivity|].
  split; [intros u st Hs; apply upload_end_written; assumption|].
  intros name tot chunks st ws. unfold ws. cbn [written_trace].
  set (st1 := fst (handleUpdateUpload Update user pass cred (ev_start name tot) st)).
  assert (H0 : written st1 = 0%N) by (apply upload_start_written; [exact Hauth|reflexivity]).
  assert (Hinv : (written st1 + up_remaining Update (update st1) < SIZE_T_MOD)%N)
    by (rewrite H0; apply Hlt).
  destruct (data_run Update user pass cred Hauth Hle Hreg name chunks st1 Hinv)
    as [_ [_ [_ Hn]]].
  split; [exact H0 | exact Hn].
Qed.

Lemma written_reset_on_start_and_monotone_witness :
  authenticate USER PASS good_cred = true /\
  written_trace mem_sink USER PASS good_cred
    (ev_start "fw.bin" 8 :: map (ev_write "fw.bin") [(chunk 3, 3%N); (chunk 5, 5%N)])
    (mkOta 41%N 6%N) = [0%N; 3%N; 6%N] /\
  nondecreasing (written_trace mem_sink USER PASS good_cred
    (ev_start "fw.bin" 8 :: map (ev_write "fw.bin") [(chunk 3, 3%N); (chunk 5, 5%N)])
    (mkOta 41%N 6%N)) = true.
Proof.
  split; [reflexivity|]. split; [vm_compute; reflexivity|].
  destruct (written_reset_on_start_and_monotone N mem_sink USER PASS good_cred eq_refl
              mem_sink_le_len mem_sink_in_region mem_sink_remaining_lt) as [_ [_ [_ H]]].
  exact (proj2 (H "fw.bin"%string 8%N [(chunk 3, 3%N); (chunk 5, 5%N)] (mkOta 41%N 6%N))).
Defined.

(** C5: a data event whose [Update.write] returns less than the offered
    length only logs "[OTA] Write mismatch": [Update.end] is not called,
    [written] grows by the returned count, and the next data event is
    written again. With a sink that takes 512 and then 400 of two 512-byte
    chunks, [written] is 512 then 912, and a third chunk is still written. *)
Theorem partial_write_logged_and_continued :
  (forall (Sk : Type) (Update : UpdateClass Sk) (user pass : string)
          (cred : Credentials) (u : HTTPUpload) (st : Ota Sk),
     authenticate user pass cred = true ->
     status u = UPLOAD_FILE_WRITE ->
     (fst (up_write Update (buf u) (currentSize u) (update st)) < currentSize u)%N ->
     handleUpdateUpload Update user pass cred u st =
       (mkOta ((written st + fst (up_write Update (buf u) (currentSize u) (update st)))
                 mod SIZE_T_MOD)%N
              (snd (up_write Update (buf u) (currentSize u) (update st))),
        [Log "[OTA] Uploading firmware..."; Log "[OTA] Upload: %s, size=%u\n";
         CallWrite (currentSize u) (fst (up_write Update (buf u) (currentSize u) (update st)));
         Log "[OTA] Write mismatch"; Yield])) /\
  (let us := [ev_start "fw.bin" 1024; ev_data "fw.bin" (chunk 512);
              ev_data "fw.bin" (repeat x00 512); ev_data "fw.bin" (repeat x00 100)] in
   let st0 := mkOta 0%N [512%N; 400%N] in
   written_trace scripted_sink USER PASS good_cred us st0 = [0%N; 512%N; 912%N; 1012%N] /\
   In (Log "[OTA] Write mismatch") (snd (run_upload scripted_sink USER PASS good_cred us st0)) /\
   calls_end (snd (run_upload scripted_sink USER PASS good_cred us st0)) = false /\
   count_writes (snd (run_upload scripted_sink USER PASS good_cred us st0)) = 3).
Proof.
  split.
  - intros Sk Update user pass cred u st Hauth Hs Hlt.
    rewrite upload_write_step by assumption.
    assert (Hne : N.eqb (fst (up_write Update (buf u) (currentSize u) (update st)))
                        (currentSize u) = false) by (apply N.eqb_neq; lia).
    rewrite Hne. reflexivity.
  - vm_compute. repeat split; auto 20.
Qed.

(** ** Lemmas on the ESP32 [Update] model *)



Lemma count_writes_app es1 es2 :
  count_writes (es1 ++ es2) = (count_writes es1 + count_writes es2)%nat.
Proof. unfold count_writes; rewrite filter_app, length_app; reflexivity. Qed.






(** C8: [onStart("fw.bin", 1024)], two data chunks of 512 bytes, end,
    against an [Update] that accepts every write in full and whose
    [end(true)] succeeds without recording an error: the seal succeeds
    (the session is Completed), [written] is 1024, and the request is
    answered "Update OK. Rebooting..." before a 500 ms delay and a restart,
    with no earlier response. *)
Theorem full_upload_scenario_completes :
  forall (Sk : Type) (Update : UpdateClass Sk) (user pass : string)
         (cred : Credentials) (d1 d2 : list byte) (st : Ota Sk),
  authenticate user pass cred = true ->
  (forall d n s, fst (up_write Update d n s) = n) ->
  (forall s, fst (up_end Update true s) = true) ->
  (forall s, up_hasError Update (snd (up_end Update true s)) = false) ->
  let r := handlePostUpdate Update user pass cred
             (session "fw.bin" 1024 [(d1, 512%N); (d2, 512%N)]) st in
  written (fst r) = 1024%N /\
  In (CallEnd true true) (snd r) /\
  (exists pre, snd r = pre ++ [Send 200 "text/plain" "Update OK. Rebooting..."; Delay 500; Restart]
               /\ forallb (fun e => negb (is_reply e)) pre = true).
Proof.
  intros Sk Update user pass cred d1 d2 st Hauth Hw He Herr r.
  unfold r, handlePostUpdate, session. simpl.
  unfold handleUpdateDone, handleUpdateUpload.
  rewrite !(checkAuth_ok _ _ _ Hauth). simpl.
  destruct (up_begin Update (update st)) as [b0 s1]. simpl.
  pose proof (Hw d1 512%N s1) as H1.
  destruct (up_write Update d1 512 s1) as [w1 s2]. simpl in H1. subst w1. simpl.
  pose proof (Hw d2 512%N s2) as H2.
  destruct (up_write Update d2 512 s2) as [w2 s3]. simpl in H2. subst w2. simpl.
  pose proof (He s3) as H3. pose proof (Herr s3) as H4.
  destruct (up_end Update true s3) as [b s4]. simpl in H3, H4. subst b.
  cbn [update]. rewrite H4.
  destruct b0; simpl; (split; [reflexivity|split]);
    try (repeat (first [left; reflexivity | right]); fail);
    match goal with |- exists pre, ?l = _ /\ _ =>
      exists (firstn (List.length l - 3) l); split; reflexivity end.
Qed.

Lemma full_upload_scenario_completes_witness :
  authenticate USER PASS good_cred = true /\
  written (fst (handlePostUpdate full_sink USER PASS good_cred
             (session "fw.bin" 1024 [(chunk 512, 512%N); (repeat x00 512, 512%N)])
             (mkOta 0%N tt))) = 1024%N.
Proof.
  split; [reflexivity|].
  exact (proj1 (full_upload_scenario_completes unit
           full_sink
           USER PASS good_cred (chunk 512) (repeat x00 512) (mkOta 0%N tt)
           eq_refl (fun _ _ _ => eq_refl) (fun _ => eq_refl) (fun _ => eq_refl))).
Defined.

(** C9: the end event always calls [Update.end(true)], whatever happened
    before (partial writes, fewer bytes than the region or than [totalSize]),
    and [Update] then holds the state that call leaves. On the ESP32 model,
    8 bytes staged in a 4096-byte region after a start declaring 1024 bytes
    would be refused by [end(false)], but [end(true)] seals them and the
    short image becomes the boot image. *)
Theorem end_event_forces_seal :
  (forall (Sk : Type) (Update : UpdateClass Sk) (user pass : string)
          (cred : Credentials) (u : HTTPUpload) (st : Ota Sk),
     authenticate user pass cred = true ->
     status u = UPLOAD_FILE_END ->
     In (CallEnd true (fst (up_end Update true (update st))))
        (snd (handleUpdateUpload Update user pass cred u st)) /\
     update (fst (handleUpdateUpload Update user pass cred u st))
       = snd (up_end Update true (update st))) /\
  (let U := Update_esp32 (Some 4096%N) (fun _ => true) in
   let us := [ev_start "fw.bin" 1024; ev_data "fw.bin" (chunk 8)] in
   let s := update (fst (run_upload U USER PASS good_cred us (mkOta 0%N updater_init))) in
   (u_progress s < u_size s)%N /\ (u_progress s < 1024)%N /\
   fst (upd_end (fun _ => true) false s) = false /\
   fst (upd_end (fun _ => true) true s) = true /\
   u_boot (update (fst (run_upload U USER PASS good_cred (us ++ [ev_end "fw.bin" 1024])
                          (mkOta 0%N updater_init)))) = Some (chunk 8)).
Proof.
  split.
  - intros Sk Update user pass cred u st Hauth Hs.
    unfold handleUpdateUpload. rewrite (checkAuth_ok _ _ _ Hauth), Hs. simpl.
    destruct (up_end Update true (update st)) as [[|] s1]; simpl; split; auto 10.
  - vm_compute. repeat split; reflexivity.
Qed.

(** ** Boot image changes *)





(** ** Events of one upload session *)

Section Events.
Context {Sk : Type} (Update : UpdateClass Sk).
Variables user pass : string.
Variable cred : Credentials.
Hypothesis Hauth : authenticate user pass cred = true.








End Events.

(** ** Staging on the ESP32 [Update] model *)












(** ** [heartbeat] *)

Lemma heartbeats_from m n :
  (m < 200)%nat ->
  heartbeats n (mkHeartbeat (Z.of_nat m) 200) =
  (mkHeartbeat (Z.of_nat ((m + n) mod 200)) 200, repeat (Log ". ") ((m + n) / 200)).
Proof.
  revert m; induction n as [|k IH]; intros m Hm.
  - cbn [heartbeats]. rewrite Nat.add_0_r, Nat.mod_small, Nat.div_small by exact Hm. reflexivity.
  - cbn [heartbeats].
    destruct (Nat.eq_dec m 199) as [->|Hne].
    + change (heartbeat (mkHeartbeat (Z.of_nat 199) 200)) with (mkHeartbeat 0 200, [Log ". "]).
      cbv beta iota.
      change (heartbeats k (mkHeartbeat 0 200)) with (heartbeats k (mkHeartbeat (Z.of_nat 0) 200)).
      rewrite (IH 0%nat) by lia. cbv beta iota.
      replace (199 + S k)%nat with (k + 1 * 200)%nat by lia.
      rewrite Nat.div_add, Nat.Div0.mod_add by discriminate.
      rewrite Nat.add_0_l, Nat.add_1_r. reflexivity.
    + assert (Hstep : heartbeat (mkHeartbeat (Z.of_nat m) 200) =
                      (mkHeartbeat (Z.of_nat (S m)) 200, [])).
      { unfold heartbeat. cbn [hb_count hb_nextChange].
        rewrite Z.rem_small by lia.
        replace (Z.of_nat m + 1 =? 0)%Z with false by (symmetry; apply Z.eqb_neq; lia).
        rewrite Nat2Z.inj_succ. reflexivity. }
      rewrite Hstep. cbv beta iota. rewrite (IH (S m)) by lia.
      rewrite Nat.add_succ_comm. reflexivity.
Qed.

(** * Further properties of the code *)

(** A request that is not [POST /update] (whatever its credentials and
    body) leaves the [written] counter and [Update] unchanged, and neither
    calls [Update] nor restarts the device. *)
Theorem serve_other_requests_leave_update :
  forall (Sk : Type) (Update : UpdateClass Sk) (user pass ip : string) (req : Request) (st : Ota Sk),
  req_method req <> HTTP_POST \/ req_uri req <> "/update"%string ->
  fst (serveRequest Update user pass ip req st) = st /\
  forallb (fun e => negb (touches_device e)) (snd (serveRequest Update user pass ip req st)) = true.
Proof.
  intros Sk Update user pass ip req st H. unfold serveRequest.
  destruct (String.eqb (req_uri req) "/") eqn:E1.
  { destruct (req_method req); split; reflexivity. }
  destruct (String.eqb (req_uri req) "/update") eqn:E2.
  2: { split; reflexivity. }
  apply String.eqb_eq in E2.
  destruct (req_method req) eqn:Em; try (split; reflexivity).
  - split; [reflexivity|]. cbn [snd]. unfold handleUpdatePage, checkAuth.
    destruct (authenticate user pass (req_cred req)); reflexivity.
  - exfalso. destruct H as [H|H]; contradiction.
Qed.

Lemma serve_other_requests_leave_update_witness :
  fst (serveRequest mem_sink USER PASS "192.168.1.20" (mkRequest HTTP_GET "/" None [ev_start "fw.bin" 4])
         (mkOta 7%N 16%N)) = mkOta 7%N 16%N /\
  forallb (fun e => negb (touches_device e))
    (snd (serveRequest mem_sink USER PASS "192.168.1.20" (mkRequest HTTP_GET "/" None [ev_start "fw.bin" 4])
            (mkOta 7%N 16%N))) = true.
Proof.
  apply (serve_other_requests_leave_update N mem_sink USER PASS "192.168.1.20"
           (mkRequest HTTP_GET "/" None [ev_start "fw.bin" 4]) (mkOta 7%N 16%N)).
  left; discriminate.
Defined.

(** The device restarts while serving a request only if the request is a
    [POST /update] whose credentials match the configured user and
    password. *)
Theorem restart_requires_authenticated_post :
  forall (Sk : Type) (Update : UpdateClass Sk) (user pass ip : string) (req : Request) (st : Ota Sk),
  In Restart (snd (serveRequest Update user pass ip req st)) ->
  req_method req = HTTP_POST /\ req_uri req = "/update"%string /\
  authenticate user pass (req_cred req) = true.
Proof.
  intros Sk Update user pass ip req st Hin. unfold serveRequest in Hin.
  destruct (String.eqb (req_uri req) "/") eqn:E1.
  { exfalso. destruct (req_method req); simpl in Hin;
      destruct Hin as [Hin|Hin]; solve [discriminate | contradiction]. }
  destruct (String.eqb (req_uri req) "/update") eqn:E2.
  2: { exfalso. simpl in Hin. destruct Hin as [Hin|Hin]; solve [discriminate | contradiction]. }
  apply String.eqb_eq in E2.
  destruct (req_method req) eqn:Em;
    try (exfalso; simpl in Hin; destruct Hin as [Hin|Hin]; solve [discriminate | contradiction]).
  - exfalso. cbn [snd] in Hin. unfold handleUpdatePage, checkAuth in Hin.
    destruct (authenticate user pass (req_cred req)); simpl in Hin;
      destruct Hin as [Hin|Hin]; solve [discriminate | contradiction].
  - split; [reflexivity|split; [exact E2|]].
    destruct (authenticate user pass (req_cred req)) eqn:Ha; [reflexivity|exfalso].
    unfold handlePostRequest in Hin.
    destruct (aborted_upload (req_uploads req)).
    { rewrite (run_upload_unauth Update user pass _ _ _ Ha) in Hin. simpl in Hin.
      apply repeat_spec in Hin. discriminate. }
    unfold handlePostUpdate in Hin.
    rewrite (run_upload_unauth Update user pass _ _ _ Ha), (done_unauth Update user pass _ _ Ha) in Hin.
    simpl in Hin. apply in_app_or in Hin. destruct Hin as [Hin|[Hin|Hin]];
      [apply repeat_spec in Hin|..]; solve [discriminate | contradiction].
Qed.

Lemma restart_requires_authenticated_post_witness :
  In Restart (snd (serveRequest full_sink USER PASS "192.168.1.20"
                     (mkRequest HTTP_POST "/update" good_cred (session "fw.bin" 4 [(chunk 4, 4%N)]))
                     (mkOta 0%N tt))) /\
  authenticate USER PASS good_cred = true.
Proof.
  assert (H : In Restart (snd (serveRequest full_sink USER PASS "192.168.1.20"
                     (mkRequest HTTP_POST "/update" good_cred (session "fw.bin" 4 [(chunk 4, 4%N)]))
                     (mkOta 0%N tt)))) by (vm_compute; tauto).
  split; [exact H|].
  exact (proj2 (proj2 (restart_requires_authenticated_post unit full_sink USER PASS "192.168.1.20"
           (mkRequest HTTP_POST "/update" good_cred (session "fw.bin" 4 [(chunk 4, 4%N)]))
           (mkOta 0%N tt) H))).
Defined.







(** [heartbeat()] called [n] times from power-on: [nextChange] stays 200
    (its 500 and 20 branches are never reached), [count] is [n mod 200],
    and exactly [n / 200] dots have been printed, one on every 200th
    call. *)
Theorem heartbeat_dot_every_200_calls :
  forall n : nat,
  heartbeats n heartbeat_init =
  (mkHeartbeat (Z.of_nat (n mod 200)) 200, repeat (Log ". ") (n / 200)).
Proof.
  intros n. exact (heartbeats_from 0 n ltac:(lia)).
Qed.
